(** * Design-Pattern-CPP: the Adapter and Decorator illustrations

    A shallow embedding of [Adapter.cpp] (the class adapter and the object
    adapter [TextShape]), of [Structural Patterns/Decorator_1.cpp] (the
    backpack chain) and of [Structural Patterns/Decorator.cpp] (the
    forwarding [Decorator]), with the properties the specification states
    about them. *)

From stdpp Require Import base option gmap strings.
From Stdlib Require Import ZArith Ascii String.

Open Scope Z_scope.

(* ===================================================================== *)
(** * Adapter.cpp                                                         *)
(* ===================================================================== *)

Module Adapter.

(** Objects live at addresses; a pointer or a reference is an address. *)
Abbreviation addr := positive (only parsing).

(** What [Adapter.cpp] uses but does not define: the coordinate type with
    its [+], the class [TextView] (declared, its member functions are not
    defined in the repository) and the class [TextManipulator] with its
    one-argument constructor.

    [GetOrigin(Coord &x, Coord &y)] and [GetExtent(Coord &width, Coord
    &height)] fill two out-parameters; they are read here as returning the
    pair, in the order of the declaration.  The three member functions are
    [const] and take no input, so each is a function of the object.
    [GetOrigin] and [GetExtent] are not virtual.  [IsEmpty] is virtual:
    [TextView_IsEmpty] is the implementation of the class [TextView] itself
    (the qualified call [TextView::IsEmpty()]), [virtual_IsEmpty] is the call
    through a pointer, [p->IsEmpty()], answered by the class of the object,
    which may be a subclass of [TextView]. *)
Class Declared := {
  Coord : Type;
  Coord_plus : Coord -> Coord -> Coord;
  TextView : Type;
  GetOrigin : TextView -> Coord * Coord;
  GetExtent : TextView -> Coord * Coord;
  TextView_IsEmpty : TextView -> bool;
  virtual_IsEmpty : TextView -> bool;
  Manipulator : Type;
  TextManipulator : addr -> Manipulator
}.

Declare Scope coord_scope.
Delimit Scope coord_scope with coord.
Infix "+" := Coord_plus : coord_scope.

Section Memory.
Context `{Declared}.

(** [Point(a, b)]: two coordinates, in the order of the constructor. *)
Record Point := mkPoint { first_coord : Coord; second_coord : Coord }.

(** The objects of a program that uses one of the two adapters: the text
    views the client created, the [TextShape] adapters (of type [TS], which
    differs between the two variants), the [Point] variables handed over by
    reference, and the manipulators allocated with [new].  Objects of
    different kinds do not overlap: a [Point] variable is not a part of a
    text view or of an adapter.  Two references to a [Point] may well name
    the same variable. *)
Record Store (TS : Type) := mkStore {
  text_views : gmap addr TextView;
  shapes : gmap addr TS;
  points : gmap addr Point;
  manipulators : gmap addr Manipulator
}.
Global Arguments mkStore {TS} _ _ _ _.
Global Arguments text_views {TS} _.
Global Arguments shapes {TS} _.
Global Arguments points {TS} _.
Global Arguments manipulators {TS} _.

(** A member function runs on the store and may fail, when it follows a
    pointer to no object (undefined behaviour in C++). *)
Definition M (TS A : Type) : Type := Store TS -> option (A * Store TS).

Definition ret {TS A} (a : A) : M TS A := fun s => Some (a, s).

Definition bind {TS A B} (c : M TS A) (k : A -> M TS B) : M TS B :=
  fun s => match c s with
           | Some (a, s') => k a s'
           | None => None
           end.

(** [*p] for a pointer to a [TextShape]. *)
Definition load_shape {TS} (p : addr) : M TS TS :=
  fun s => match shapes s !! p with
           | Some sh => Some (sh, s)
           | None => None
           end.

(** [*p] for a pointer to a [TextView]. *)
Definition load_view {TS} (p : addr) : M TS TextView :=
  fun s => match text_views s !! p with
           | Some v => Some (v, s)
           | None => None
           end.

(** [r = v] for a reference [r] to a [Point]. *)
Definition assign_point {TS} (r : addr) (v : Point) : M TS unit :=
  fun s => Some (tt, mkStore (text_views s) (shapes s)
                             (<[r := v]> (points s)) (manipulators s)).

(** [new T(...)] for a manipulator: the object is placed at an address
    that holds no manipulator yet, and that address is returned. *)
Definition new_manipulator {TS} (m : Manipulator) : M TS addr :=
  fun s => let a := fresh (dom (manipulators s)) in
           Some (a, mkStore (text_views s) (shapes s) (points s)
                            (<[a := m]> (manipulators s))).

(** What the caller finds in its two [Point] variables after a call of
    [BoundingBox(bottomLeft, topRight)]. *)
Definition out_params {TS} (r : option (unit * Store TS))
    (bottomLeft topRight : addr) : option (Point * Point) :=
  match r with
  | Some (_, s) =>
      match points s !! bottomLeft, points s !! topRight with
      | Some bl, Some tr => Some (bl, tr)
      | _, _ => None
      end
  | None => None
  end.

(** A call that took the store from [s] to [s'] wrote nothing but the
    [Point] variables [bottomLeft] and [topRight]. *)
Definition writes_only {TS} (bottomLeft topRight : addr)
    (s s' : Store TS) : Prop :=
  text_views s' = text_views s
  /\ shapes s' = shapes s
  /\ manipulators s' = manipulators s
  /\ forall p : addr, p <> bottomLeft -> p <> topRight ->
       points s' !! p = points s !! p.

(** The value a member function returns, when it returns. *)
Definition result {TS A} (r : option (A * Store TS)) : option A :=
  match r with
  | Some (a, _) => Some a
  | None => None
  end.
End Memory.

Notation "x <- c ;; k" := (bind c (fun x => k))
  (at level 100, c at next level, right associativity).
Notation "c ;;; k" := (bind c (fun _ => k))
  (at level 100, right associativity).

(** [class Shape], the interface the client uses: what a class has to
    provide for its objects to be used through a [Shape*]. *)
Class Shape `{Declared} (TS : Type) := {
  Shape_BoundingBox : addr -> addr -> addr -> M TS unit;
  Shape_CreateManipulator : addr -> M TS addr
}.

(** ** The class adapter: [class TextShape : public Shape, private TextView] *)
Module ClassAdapter.
Section ClassAdapter.
Context `{Declared}.

(** The adapter object contains its [TextView] base and nothing else. *)
Record TextShape := mkTextShape { TextView_base : TextView }.

(** A call of an inherited [TextView] member function on [this]. *)
Definition on_base {A} (this : addr) (f : TextView -> A) : M TextShape A :=
  sh <- load_shape this ;; ret (f (TextView_base sh)).

Definition BoundingBox (this bottomLeft topRight : addr) : M TextShape unit :=
  origin <- on_base this GetOrigin ;;
  let (bottom, left) := origin in
  extent <- on_base this GetExtent ;;
  let (width, height) := extent in
  assign_point bottomLeft (mkPoint bottom left) ;;;
  assign_point topRight (mkPoint (bottom + height)%coord (left + width)%coord).

Definition IsEmpty (this : addr) : M TextShape bool :=
  on_base this TextView_IsEmpty.

Definition CreateManipulator (this : addr) : M TextShape addr :=
  new_manipulator (TextManipulator this).

#[export] Instance class_TextShape_is_Shape : Shape TextShape := {|
  Shape_BoundingBox := BoundingBox;
  Shape_CreateManipulator := CreateManipulator
|}.
End ClassAdapter.
End ClassAdapter.

(** ** The object adapter: [class TextShape : public Shape] with a
       [TextView* _text] *)
Module ObjectAdapter.
Section ObjectAdapter.
Context `{Declared}.

Record TextShape := mkTextShape { _text : addr }.

(** [TextShape::TextShape(TextView* t) { _text = t; }], for the adapter
    object placed at [this]. *)
Definition TextShape_ctor (this t : addr) : M TextShape unit :=
  fun s => Some (tt, mkStore (text_views s)
                             (<[this := mkTextShape t]> (shapes s))
                             (points s) (manipulators s)).

(** [_text->f(...)]: read the pointer out of [this], then the object it
    points to. *)
Definition on_text {A} (this : addr) (f : TextView -> A) : M TextShape A :=
  sh <- load_shape this ;;
  v <- load_view (_text sh) ;;
  ret (f v).

Definition BoundingBox (this bottomLeft topRight : addr) : M TextShape unit :=
  origin <- on_text this GetOrigin ;;
  let (bottom, left) := origin in
  extent <- on_text this GetExtent ;;
  let (width, height) := extent in
  assign_point bottomLeft (mkPoint bottom left) ;;;
  assign_point topRight (mkPoint (bottom + height)%coord (left + width)%coord).

Definition IsEmpty (this : addr) : M TextShape bool :=
  on_text this virtual_IsEmpty.

Definition CreateManipulator (this : addr) : M TextShape addr :=
  new_manipulator (TextManipulator this).

#[export] Instance object_TextShape_is_Shape : Shape TextShape := {|
  Shape_BoundingBox := BoundingBox;
  Shape_CreateManipulator := CreateManipulator
|}.
End ObjectAdapter.
End ObjectAdapter.

End Adapter.

(* ===================================================================== *)
(** * Structural Patterns/Decorator_1.cpp                                 *)
(* ===================================================================== *)

Module Decorator_1.

(** [cout] is the text written to it so far; [os << s] adds [s] at its end. *)
Definition ostream := string.

Definition put (os : ostream) (s : string) : ostream := os +:+ s.
Infix "<<" := put (at level 61, left associativity).

(** The line feed of the C++ literal ["\n ..."]. *)
Definition LF : string := String "010"%char EmptyString.

(** The objects reachable through an [IBackpack*]: an instance of one of the
    five classes of the file.  A decorator holds the pointer [m_Decorator]
    it was constructed with (never null in the file, never reassigned: the
    member is private and only the constructor writes it), so a chain of
    [new T(new T'(...))] is the tree of the constructor calls. *)
Inductive IBackpack : Type :=
| PlainBackpack
| BackpackDecorator (m_Decorator : IBackpack)
| WithLaptopSlot (m_Decorator : IBackpack)
| WithUSBCharge (m_Decorator : IBackpack)
| WithWaterBottle (m_Decorator : IBackpack).

(** [BackpackDecorator::assemble], with the virtual call
    [m_Decorator->assemble()] as the parameter [virtual_assemble]; the three
    subclasses call it as [BackpackDecorator::assemble()]. *)
Definition BackpackDecorator_assemble
    (virtual_assemble : IBackpack -> ostream -> ostream)
    (m_Decorator : IBackpack) (cout : ostream) : ostream :=
  virtual_assemble m_Decorator cout.

(** [p->assemble()]: the class of the object selects the body. *)
Fixpoint assemble (this : IBackpack) (cout : ostream) : ostream :=
  match this with
  | PlainBackpack =>
      cout << LF +:+ " ShoulderStraps and mainCompartment"
  | BackpackDecorator m_Decorator =>
      BackpackDecorator_assemble assemble m_Decorator cout
  | WithLaptopSlot m_Decorator =>
      let cout := BackpackDecorator_assemble assemble m_Decorator cout in
      cout << " + LaptopSlot"
  | WithUSBCharge m_Decorator =>
      let cout := BackpackDecorator_assemble assemble m_Decorator cout in
      cout << " + USBCharge"
  | WithWaterBottle m_Decorator =>
      let cout := BackpackDecorator_assemble assemble m_Decorator cout in
      cout << " + WaterBottle"
  end.

(** The chain [main] builds, and [main]: it assembles the chain and
    returns 0. *)
Definition pBackpack : IBackpack :=
  WithWaterBottle                        (* 5 *)
    (WithUSBCharge                       (* 4 *)
      (WithLaptopSlot                    (* 3 *)
        (BackpackDecorator               (* 2 *)
          PlainBackpack))).              (* 1 *)

Definition main (cout : ostream) : Z * ostream :=
  let cout := assemble pBackpack cout in
  (0, cout).

(** ** Compositions of layers

    The four decorator classes, the constructor call of each, and the text
    the own [assemble] of each writes after it has forwarded (none for
    [BackpackDecorator], which only forwards). *)
Inductive Layer : Type := Bare | LaptopSlot | USBCharge | WaterBottle.

Definition wrap (l : Layer) (inner : IBackpack) : IBackpack :=
  match l with
  | Bare => BackpackDecorator inner
  | LaptopSlot => WithLaptopSlot inner
  | USBCharge => WithUSBCharge inner
  | WaterBottle => WithWaterBottle inner
  end.

Definition augmentation (l : Layer) : string :=
  match l with
  | Bare => ""
  | LaptopSlot => " + LaptopSlot"
  | USBCharge => " + USBCharge"
  | WaterBottle => " + WaterBottle"
  end.

(** [compose base [l1; ...; lN]] wraps [base] in [l1] first and in [lN]
    last: [lN] is the outermost node, the one handed to the caller. *)
Definition compose (base : IBackpack) (layers : list Layer) : IBackpack :=
  fold_left (fun inner l => wrap l inner) layers base.

(** All the texts of a list, one after the other. *)
Definition texts (l : list string) : string := fold_right String.append "" l.

(** The chain without its [BackpackDecorator] nodes. *)
Fixpoint strip (b : IBackpack) : IBackpack :=
  match b with
  | PlainBackpack => PlainBackpack
  | BackpackDecorator d => strip d
  | WithLaptopSlot d => WithLaptopSlot (strip d)
  | WithUSBCharge d => WithUSBCharge (strip d)
  | WithWaterBottle d => WithWaterBottle (strip d)
  end.

(** The decorator layers of a chain, innermost first. *)
Fixpoint layers_of (b : IBackpack) : list Layer :=
  match b with
  | PlainBackpack => []
  | BackpackDecorator d => layers_of d ++ [Bare]
  | WithLaptopSlot d => layers_of d ++ [LaptopSlot]
  | WithUSBCharge d => layers_of d ++ [USBCharge]
  | WithWaterBottle d => layers_of d ++ [WaterBottle]
  end.

(** The layers whose [assemble] writes a text of its own: all but the bare
    [BackpackDecorator]. *)
Definition writes_text (l : Layer) : bool :=
  match l with
  | Bare => false
  | LaptopSlot | USBCharge | WaterBottle => true
  end.

Definition features (layers : list Layer) : list Layer :=
  List.filter writes_text layers.

(** The number of objects of a chain: one per [new]. *)
Definition nodes (b : IBackpack) : nat := S (List.length (layers_of b)).

End Decorator_1.

(* ===================================================================== *)
(** * Decorator_1.cpp: the objects in memory                              *)
(* ===================================================================== *)

Module BackpackHeap.
Import Decorator_1.

(** An object of one of the five classes as it lies in memory: a
    [PlainBackpack] has no data member, an object of [BackpackDecorator] or
    of one of its three subclasses has its class and the pointer
    [m_Decorator]. *)
Inductive object : Type :=
| Plain
| Decorated (class : Layer) (m_Decorator : positive).

(** The free store: the objects allocated with [new] and not yet deleted.
    A pointer that is null or dangling is an address with no object. *)
Abbreviation heap := (gmap positive object) (only parsing).

(** [new T(...)]: the object is placed at an address that holds none. *)
Definition new (o : object) (h : heap) : positive * heap :=
  let p := fresh (dom h) in (p, <[p := o]> h).

(** The nested [new] expressions that build a chain, as in [main]: the
    argument of a constructor is built before the object itself. *)
Fixpoint construct (b : IBackpack) (h : heap) : positive * heap :=
  match b with
  | PlainBackpack => new Plain h
  | BackpackDecorator d =>
      let (decorator, h) := construct d h in new (Decorated Bare decorator) h
  | WithLaptopSlot d =>
      let (dcrator, h) := construct d h in new (Decorated LaptopSlot dcrator) h
  | WithUSBCharge d =>
      let (dcrator, h) := construct d h in new (Decorated USBCharge dcrator) h
  | WithWaterBottle d =>
      let (dcrator, h) := construct d h in new (Decorated WaterBottle dcrator) h
  end.

(** [this->assemble()] on the free store.  The call follows [m_Decorator]
    from object to object; [fuel] bounds the number of nested calls, and
    there is no result when it runs out or when a pointer leads to no
    object. *)
Fixpoint assemble_at (fuel : nat) (h : heap) (this : positive)
    (cout : ostream) : option ostream :=
  match fuel with
  | O => None
  | S fuel =>
      match h !! this with
      | None => None
      | Some Plain =>
          Some (cout << LF +:+ " ShoulderStraps and mainCompartment")
      | Some (Decorated class m_Decorator) =>
          (* BackpackDecorator::assemble() *)
          match assemble_at fuel h m_Decorator cout with
          | None => None
          | Some cout =>
              match class with
              | Bare => Some cout
              | LaptopSlot => Some (cout << " + LaptopSlot")
              | USBCharge => Some (cout << " + USBCharge")
              | WaterBottle => Some (cout << " + WaterBottle")
              end
          end
      end
  end.

(** [delete p].  The destructor [~IBackpack() {}] is empty and the
    decorators declare none, so nothing is done with [m_Decorator]: only the
    storage of the object [p] points to is released.  There is no result
    when [p] points to no object. *)
Definition delete_object (p : positive) (h : heap) : option heap :=
  match h !! p with
  | Some _ => Some (delete p h)
  | None => None
  end.

(** [main] on the free store: build the chain, assemble it, delete the
    pointer it holds, return 0. *)
Definition main (fuel : nat) (h : heap) (cout : ostream)
    : option (Z * ostream * heap) :=
  let (pBackpack, h) := construct Decorator_1.pBackpack h in
  match assemble_at fuel h pBackpack cout with
  | None => None
  | Some cout =>
      match delete_object pBackpack h with
      | None => None
      | Some h => Some (0, cout, h)
      end
  end.

End BackpackHeap.

(* ===================================================================== *)
(** * Structural Patterns/Decorator.cpp                                   *)
(* ===================================================================== *)

Module Decorator.
Section Decorator.
(** What [Draw] and [Resize] act on is not part of the file. *)
Context {Display : Type}.

(** A [VisualComponent*]: an object with the two virtual operations. *)
Record VisualComponent := mkVisualComponent {
  Draw : Display -> Display;
  Resize : Display -> Display
}.

(** The constructor of [Decorator], which keeps the component it is
    given, with [Decorator::Draw] and [Decorator::Resize]: both pass the
    request to [_component]. *)
Definition Decorator (_component : VisualComponent) : VisualComponent :=
  {| Draw := fun d => Draw _component d;
     Resize := fun d => Resize _component d |}.

(** [n] decorators, one around the other, around a component:
    [new Decorator(new Decorator(... c))]. *)
Fixpoint decorated (n : nat) (c : VisualComponent) : VisualComponent :=
  match n with
  | O => c
  | S n => Decorator (decorated n c)
  end.
End Decorator.
Global Arguments VisualComponent : clear implicits.
End Decorator.

(* ===================================================================== *)
(** * A concrete text view, for running the adapters                      *)
(* ===================================================================== *)

Module Sample.
Import Adapter.

(** A text view that stores what its three queries answer; coordinates are
    integers, and a manipulator remembers the shape it was made for. *)
Record View := mkView {
  origin : Z * Z;
  extent : Z * Z;
  empty : bool
}.

Record ShapeManipulator := mkManipulator { shape : positive }.

Definition declared : Declared := {|
  Coord := Z;
  Coord_plus := Z.add;
  TextView := View;
  GetOrigin := origin;
  GetExtent := extent;
  TextView_IsEmpty := empty;
  virtual_IsEmpty := empty;
  Manipulator := ShapeManipulator;
  TextManipulator := mkManipulator
|}.

(** The view of the specification's example: origin (0,0), width 10,
    height 5. *)
Definition view : View := mkView (0, 0) (10, 5) false.

(** A class adapter whose base is [view], placed at address 1. *)
Definition class_shape : ClassAdapter.TextShape (H := declared) :=
  ClassAdapter.mkTextShape (H := declared) view.

Definition class_store : Store (H := declared) (ClassAdapter.TextShape (H := declared)) :=
  mkStore (H := declared) ∅ {[ 1%positive := class_shape ]} ∅ ∅.

(** [view] at address 7, before any adapter is constructed. *)
Definition client_store : Store (H := declared) ObjectAdapter.TextShape :=
  mkStore (H := declared) {[ 7%positive := view ]} ∅ ∅ ∅.

(** The same after [TextShape(7)] has been constructed at address 1. *)
Definition object_shape : ObjectAdapter.TextShape := ObjectAdapter.mkTextShape 7.

Definition object_store : Store (H := declared) ObjectAdapter.TextShape :=
  mkStore (H := declared) {[ 7%positive := view ]}
          {[ 1%positive := object_shape ]} ∅ ∅.


(** Another class adapter, at address 4 of another store: its view has the
    origin and the extent of [view] but is empty, and the store already
    holds a point in variable 2 and a manipulator. *)
Definition other_view : View := mkView (0, 0) (10, 5) true.

Definition other_class_shape : ClassAdapter.TextShape (H := declared) :=
  ClassAdapter.mkTextShape (H := declared) other_view.

Definition other_class_store : Store (H := declared) (ClassAdapter.TextShape (H := declared)) :=
  mkStore (H := declared) ∅ {[ 4%positive := other_class_shape ]}
          {[ 2%positive := mkPoint (H := declared) 9 9 ]}
          {[ 1%positive := mkManipulator 4 ]}.


(** A client store with no text view at all: every pointer to a text view
    dangles. *)
Definition empty_store : Store (H := declared) ObjectAdapter.TextShape :=
  mkStore (H := declared) ∅ ∅ ∅ ∅.


(** A client store with two text views, at addresses 7 and 8. *)
Definition two_views_store : Store (H := declared) ObjectAdapter.TextShape :=
  mkStore (H := declared) {[ 7%positive := view; 8%positive := other_view ]}
          ∅ ∅ ∅.

End Sample.

(* ===================================================================== *)
(** * Properties of the adapters                                          *)
(* ===================================================================== *)

Module AdapterFacts.
Import Adapter.

Section Runs.
Context `{Declared}.

(** Reading the two variables back after both assignments: the second
    assignment wins when both references name the same variable. *)
Lemma out_params_assigned {TS} (s : Store TS) (bl tr : addr) (p q : Point) :
  out_params
    (Some (tt, mkStore (text_views s) (shapes s)
                       (<[tr := q]> (<[bl := p]> (points s)))
                       (manipulators s))) bl tr
  = Some (if decide (bl = tr) then q else p, q).
Proof.
  unfold out_params; simpl.
  rewrite lookup_insert_eq.
  destruct (decide (bl = tr)) as [->|Hne].
  - by rewrite lookup_insert_eq.
  - rewrite lookup_insert_ne by congruence.
    by rewrite lookup_insert_eq.
Qed.

(** The class adapter's [BoundingBox] on a live adapter returns, and leaves
    the store with the two assignments made. *)
Lemma class_BoundingBox_run (s : Store ClassAdapter.TextShape)
    (this bl tr : addr) (sh : ClassAdapter.TextShape) :
  shapes s !! this = Some sh ->
  ClassAdapter.BoundingBox this bl tr s =
    let o := GetOrigin (ClassAdapter.TextView_base sh) in
    let e := GetExtent (ClassAdapter.TextView_base sh) in
    Some (tt, mkStore (text_views s) (shapes s)
                (<[tr := mkPoint (fst o + snd e)%coord (snd o + fst e)%coord]>
                   (<[bl := mkPoint (fst o) (snd o)]> (points s)))
                (manipulators s)).
Proof.
  intros Hsh.
  unfold ClassAdapter.BoundingBox, ClassAdapter.on_base, bind, load_shape, ret.
  rewrite Hsh.
  destruct (GetOrigin _) as [bottom left_]; simpl.
  unfold bind, load_shape. rewrite Hsh.
  destruct (GetExtent _) as [width height]; reflexivity.
Qed.

Lemma class_IsEmpty_run (s : Store ClassAdapter.TextShape)
    (this : addr) (sh : ClassAdapter.TextShape) :
  shapes s !! this = Some sh ->
  ClassAdapter.IsEmpty this s
  = Some (TextView_IsEmpty (ClassAdapter.TextView_base sh), s).
Proof.
  intros Hsh.
  unfold ClassAdapter.IsEmpty, ClassAdapter.on_base, bind, load_shape, ret.
  by rewrite Hsh.
Qed.

(** A delegated call of the object adapter on a live adapter whose
    [_text] points to a live view returns what the view answers and
    leaves the store as it was. *)
Lemma on_text_run {A} (f : TextView -> A) (s : Store ObjectAdapter.TextShape)
    (this : addr) (sh : ObjectAdapter.TextShape) (v : TextView) :
  shapes s !! this = Some sh ->
  text_views s !! ObjectAdapter._text sh = Some v ->
  ObjectAdapter.on_text this f s = Some (f v, s).
Proof.
  intros Hsh Hv.
  unfold ObjectAdapter.on_text, bind, load_shape, load_view, ret.
  by rewrite Hsh, Hv.
Qed.

Lemma object_BoundingBox_run (s : Store ObjectAdapter.TextShape)
    (this bl tr : addr) (sh : ObjectAdapter.TextShape) (v : TextView) :
  shapes s !! this = Some sh ->
  text_views s !! ObjectAdapter._text sh = Some v ->
  ObjectAdapter.BoundingBox this bl tr s =
    let o := GetOrigin v in
    let e := GetExtent v in
    Some (tt, mkStore (text_views s) (shapes s)
                (<[tr := mkPoint (fst o + snd e)%coord (snd o + fst e)%coord]>
                   (<[bl := mkPoint (fst o) (snd o)]> (points s)))
                (manipulators s)).
Proof.
  intros Hsh Hv.
  unfold ObjectAdapter.BoundingBox, bind.
  rewrite (on_text_run GetOrigin s this sh v Hsh Hv).
  destruct (GetOrigin v) as [bottom left_].
  rewrite (on_text_run GetExtent s this sh v Hsh Hv).
  destruct (GetExtent v) as [width height].
  reflexivity.
Qed.

Lemma object_IsEmpty_run (s : Store ObjectAdapter.TextShape)
    (this : addr) (sh : ObjectAdapter.TextShape) (v : TextView) :
  shapes s !! this = Some sh ->
  text_views s !! ObjectAdapter._text sh = Some v ->
  ObjectAdapter.IsEmpty this s = Some (virtual_IsEmpty v, s).
Proof. intros Hsh Hv. by apply on_text_run with (sh := sh). Qed.

(** Without a live adapter, or without a live view behind [_text], the
    calls have no result. *)
Lemma class_BoundingBox_dangling (s : Store ClassAdapter.TextShape)
    (this bl tr : addr) :
  shapes s !! this = None -> ClassAdapter.BoundingBox this bl tr s = None.
Proof.
  intros Hsh.
  unfold ClassAdapter.BoundingBox, ClassAdapter.on_base, bind, load_shape.
  by rewrite Hsh.
Qed.

Lemma object_BoundingBox_dangling (s : Store ObjectAdapter.TextShape)
    (this bl tr : addr) (sh : ObjectAdapter.TextShape) :
  shapes s !! this = Some sh ->
  text_views s !! ObjectAdapter._text sh = None ->
  ObjectAdapter.BoundingBox this bl tr s = None.
Proof.
  intros Hsh Hv.
  unfold ObjectAdapter.BoundingBox, ObjectAdapter.on_text, bind,
    load_shape, load_view.
  by rewrite Hsh, Hv.
Qed.

(** The constructor of the object adapter makes [this] a live adapter
    whose [_text] is the pointer it was given. *)
Lemma TextShape_ctor_run (s : Store ObjectAdapter.TextShape) (this t : addr) :
  exists s',
    ObjectAdapter.TextShape_ctor this t s = Some (tt, s')
    /\ shapes s' !! this = Some (ObjectAdapter.mkTextShape t)
    /\ text_views s' = text_views s
    /\ points s' = points s
    /\ manipulators s' = manipulators s.
Proof.
  eexists. split; [reflexivity|]. simpl.
  by rewrite lookup_insert_eq.
Qed.
End Runs.


Section Claims.
Context `{Declared}.

(** What [BoundingBox] computes, for every view (class adapter): with
    [(x, y)] the origin and [(width, height)] the extent, in the order of
    the declarations of [GetOrigin] and [GetExtent], the bottom-left point
    is [Point(x, y)] and the top-right point is [Point(x + height,
    y + width)]. *)
Lemma class_BoundingBox_out_params (s : Store ClassAdapter.TextShape)
    (this bl tr : addr) (sh : ClassAdapter.TextShape)
    (x y width height : Coord) :
  shapes s !! this = Some sh ->
  GetOrigin (ClassAdapter.TextView_base sh) = (x, y) ->
  GetExtent (ClassAdapter.TextView_base sh) = (width, height) ->
  bl <> tr ->
  out_params (ClassAdapter.BoundingBox this bl tr s) bl tr
  = Some (mkPoint x y, mkPoint (x + height)%coord (y + width)%coord).
Proof.
  intros Hsh Ho He Hne.
  rewrite (class_BoundingBox_run s this bl tr sh Hsh); cbv zeta.
  rewrite out_params_assigned, Ho, He; simpl.
  by rewrite decide_False.
Qed.

(** The same for the object adapter. *)
Lemma object_BoundingBox_out_params (s : Store ObjectAdapter.TextShape)
    (this bl tr : addr) (sh : ObjectAdapter.TextShape) (v : TextView)
    (x y width height : Coord) :
  shapes s !! this = Some sh ->
  text_views s !! ObjectAdapter._text sh = Some v ->
  GetOrigin v = (x, y) ->
  GetExtent v = (width, height) ->
  bl <> tr ->
  out_params (ObjectAdapter.BoundingBox this bl tr s) bl tr
  = Some (mkPoint x y, mkPoint (x + height)%coord (y + width)%coord).
Proof.
  intros Hsh Hv Ho He Hne.
  rewrite (object_BoundingBox_run s this bl tr sh v Hsh Hv); cbv zeta.
  rewrite out_params_assigned, Ho, He; simpl.
  by rewrite decide_False.
Qed.

(** C4: for the object adapter and every implementation of [TextView]
    (every instance of [Declared]): once the adapter has been constructed
    with a pointer to a live object, its operations answer from that object.
    [IsEmpty] returns exactly what the object's [IsEmpty] returns.
    [BoundingBox] returns, and the two points it assigns are built from
    exactly what the object's [GetOrigin] and [GetExtent] return: the
    bottom-left point is the origin, the top-right point is made of the
    origin and the extent, and nothing else of the store changes.  The calls
    [_text->GetOrigin] and [_text->GetExtent] it makes on the way return
    what the object answers.  The adapter's definitions are the same for
    every implementation. *)
Theorem C4_object_adapter_delegates (s : Store ObjectAdapter.TextShape)
    (this t bl tr : addr) (v : TextView) :
  text_views s !! t = Some v ->
  exists s',
    ObjectAdapter.TextShape_ctor this t s = Some (tt, s')
    /\ ObjectAdapter.on_text this GetOrigin s' = Some (GetOrigin v, s')
    /\ ObjectAdapter.on_text this GetExtent s' = Some (GetExtent v, s')
    /\ ObjectAdapter.IsEmpty this s' = Some (virtual_IsEmpty v, s')
    /\ ObjectAdapter.BoundingBox this bl tr s'
       = Some (tt, mkStore (text_views s') (shapes s')
                     (<[tr := mkPoint
                                (fst (GetOrigin v) + snd (GetExtent v))%coord
                                (snd (GetOrigin v) + fst (GetExtent v))%coord]>
                        (<[bl := mkPoint (fst (GetOrigin v))
                                         (snd (GetOrigin v))]> (points s')))
                     (manipulators s')).
Proof.
  intros Hv.
  destruct (TextShape_ctor_run s this t) as (s' & Hrun & Hsh & Htv & _).
  exists s'. split; [exact Hrun|].
  assert (Hv' : text_views s' !! ObjectAdapter._text (ObjectAdapter.mkTextShape t) = Some v)
    by (simpl; by rewrite Htv).
  split; [exact (on_text_run GetOrigin s' this _ v Hsh Hv')|].
  split; [exact (on_text_run GetExtent s' this _ v Hsh Hv')|].
  split; [exact (object_IsEmpty_run s' this _ v Hsh Hv')|].
  exact (object_BoundingBox_run s' this bl tr _ v Hsh Hv').
Qed.

(** C5: the class adapter's [BoundingBox] is a function of the origin and
    the extent of its text view alone: two calls, in any two stores, on any
    two adapters whose views agree on origin and extent (and may differ in
    everything else) both return, and leave the same bottom-left and the
    same top-right point in the caller's two variables. *)
Theorem C5_class_BoundingBox_depends_on_origin_and_extent_only
    (s1 s2 : Store ClassAdapter.TextShape) (this1 this2 bl tr : addr)
    (sh1 sh2 : ClassAdapter.TextShape) :
  shapes s1 !! this1 = Some sh1 ->
  shapes s2 !! this2 = Some sh2 ->
  GetOrigin (ClassAdapter.TextView_base sh1)
    = GetOrigin (ClassAdapter.TextView_base sh2) ->
  GetExtent (ClassAdapter.TextView_base sh1)
    = GetExtent (ClassAdapter.TextView_base sh2) ->
  exists box : Point * Point,
    out_params (ClassAdapter.BoundingBox this1 bl tr s1) bl tr = Some box
    /\ out_params (ClassAdapter.BoundingBox this2 bl tr s2) bl tr = Some box.
Proof.
  intros Hsh1 Hsh2 Ho He.
  rewrite (class_BoundingBox_run s1 this1 bl tr sh1 Hsh1).
  rewrite (class_BoundingBox_run s2 this2 bl tr sh2 Hsh2).
  cbv zeta. rewrite !out_params_assigned, Ho, He.
  eexists; split; reflexivity.
Qed.

(** C6: in both variants [IsEmpty] on a live adapter returns exactly what
    [IsEmpty] of the wrapped text view returns (the base's
    [TextView::IsEmpty] for the class adapter, [_text->IsEmpty()] for the
    object adapter), and changes nothing. *)
Theorem C6_IsEmpty_is_the_wrapped_IsEmpty
    (sc : Store ClassAdapter.TextShape) (thisc : addr)
    (shc : ClassAdapter.TextShape)
    (so : Store ObjectAdapter.TextShape) (thiso : addr)
    (sho : ObjectAdapter.TextShape) (v : TextView) :
  shapes sc !! thisc = Some shc ->
  shapes so !! thiso = Some sho ->
  text_views so !! ObjectAdapter._text sho = Some v ->
  ClassAdapter.IsEmpty thisc sc
    = Some (TextView_IsEmpty (ClassAdapter.TextView_base shc), sc)
  /\ ObjectAdapter.IsEmpty thiso so = Some (virtual_IsEmpty v, so).
Proof.
  intros Hc Ho Hv. split.
  - by apply class_IsEmpty_run.
  - by apply object_IsEmpty_run with (sh := sho).
Qed.
End Claims.

Section MoreClaims.
Context `{Declared}.

(** [new] places the object where no manipulator was. *)
Lemma new_manipulator_run {TS} (m : Manipulator) (s : Store TS) :
  exists (a : addr) (s' : Store TS),
    new_manipulator m s = Some (a, s')
    /\ manipulators s !! a = None
    /\ manipulators s' = <[a := m]> (manipulators s)
    /\ text_views s' = text_views s
    /\ shapes s' = shapes s
    /\ points s' = points s.
Proof.
  unfold new_manipulator.
  eexists _, _. split; [reflexivity|]. simpl.
  split; [|done].
  apply not_elem_of_dom, is_fresh.
Qed.

(** C7: in both variants [CreateManipulator] always returns, and what it
    returns is the address of a new object (no manipulator was there
    before), which is the [TextManipulator] constructed from the adapter's
    own address [this]; nothing of the wrapped text view enters, and the
    object adapter does not even read [_text].  The rest of the store is
    unchanged. *)
Theorem C7_CreateManipulator_builds_a_manipulator_of_this
    (sc : Store ClassAdapter.TextShape) (so : Store ObjectAdapter.TextShape)
    (thisc thiso : addr) :
  (exists (m : addr) (sc' : Store ClassAdapter.TextShape),
      ClassAdapter.CreateManipulator thisc sc = Some (m, sc')
      /\ manipulators sc !! m = None
      /\ manipulators sc' = <[m := TextManipulator thisc]> (manipulators sc)
      /\ text_views sc' = text_views sc
      /\ shapes sc' = shapes sc
      /\ points sc' = points sc)
  /\ (exists (m : addr) (so' : Store ObjectAdapter.TextShape),
      ObjectAdapter.CreateManipulator thiso so = Some (m, so')
      /\ manipulators so !! m = None
      /\ manipulators so' = <[m := TextManipulator thiso]> (manipulators so)
      /\ text_views so' = text_views so
      /\ shapes so' = shapes so
      /\ points so' = points so).
Proof.
  split.
  - exact (new_manipulator_run (TextManipulator thisc) sc).
  - exact (new_manipulator_run (TextManipulator thiso) so).
Qed.

(** C9: a class adapter and an object adapter whose text views agree on
    origin, extent and emptiness are indistinguishable through
    [BoundingBox] and [IsEmpty]: both [BoundingBox] calls return and leave
    the same two points in the caller's variables, and both [IsEmpty] calls
    return the same value. *)
Theorem C9_class_and_object_adapter_agree
    (sc : Store ClassAdapter.TextShape) (so : Store ObjectAdapter.TextShape)
    (thisc thiso bl tr : addr)
    (shc : ClassAdapter.TextShape) (sho : ObjectAdapter.TextShape)
    (v : TextView) :
  shapes sc !! thisc = Some shc ->
  shapes so !! thiso = Some sho ->
  text_views so !! ObjectAdapter._text sho = Some v ->
  GetOrigin (ClassAdapter.TextView_base shc) = GetOrigin v ->
  GetExtent (ClassAdapter.TextView_base shc) = GetExtent v ->
  TextView_IsEmpty (ClassAdapter.TextView_base shc) = virtual_IsEmpty v ->
  (exists box : Point * Point,
      out_params (ClassAdapter.BoundingBox thisc bl tr sc) bl tr = Some box
      /\ out_params (ObjectAdapter.BoundingBox thiso bl tr so) bl tr = Some box)
  /\ (exists b : bool,
      result (ClassAdapter.IsEmpty thisc sc) = Some b
      /\ result (ObjectAdapter.IsEmpty thiso so) = Some b).
Proof.
  intros Hc Ho Hv Horigin Hextent Hempty. split.
  - rewrite (class_BoundingBox_run sc thisc bl tr shc Hc).
    rewrite (object_BoundingBox_run so thiso bl tr sho v Ho Hv).
    cbv zeta. rewrite !out_params_assigned, Horigin, Hextent.
    eexists; split; reflexivity.
  - rewrite (class_IsEmpty_run sc thisc shc Hc).
    rewrite (object_IsEmpty_run so thiso sho v Ho Hv).
    simpl. rewrite Hempty. eexists; split; reflexivity.
Qed.

(** The two assignments of [BoundingBox] touch the two variables only. *)
Lemma writes_only_assigned {TS} (s : Store TS) (bl tr : addr) (p q : Point) :
  writes_only bl tr s
    (mkStore (text_views s) (shapes s)
             (<[tr := q]> (<[bl := p]> (points s))) (manipulators s)).
Proof.
  unfold writes_only; simpl. repeat split.
  intros a Hbl Htr.
  rewrite lookup_insert_ne by congruence.
  by rewrite lookup_insert_ne by congruence.
Qed.

(** C10: the queries are read-only.  On a live adapter of either variant,
    [BoundingBox] returns in a store that differs from the one it started
    in at most in the two [Point] variables it was given (text views,
    adapters, manipulators and every other point are as before), and
    [IsEmpty] returns in the very store it started in. *)
Theorem C10_BoundingBox_and_IsEmpty_are_read_only
    (sc : Store ClassAdapter.TextShape) (so : Store ObjectAdapter.TextShape)
    (thisc thiso bl tr : addr)
    (shc : ClassAdapter.TextShape) (sho : ObjectAdapter.TextShape)
    (v : TextView) :
  shapes sc !! thisc = Some shc ->
  shapes so !! thiso = Some sho ->
  text_views so !! ObjectAdapter._text sho = Some v ->
  (exists sc', ClassAdapter.BoundingBox thisc bl tr sc = Some (tt, sc')
               /\ writes_only bl tr sc sc')
  /\ (exists so', ObjectAdapter.BoundingBox thiso bl tr so = Some (tt, so')
                  /\ writes_only bl tr so so')
  /\ (exists b, ClassAdapter.IsEmpty thisc sc = Some (b, sc))
  /\ (exists b, ObjectAdapter.IsEmpty thiso so = Some (b, so)).
Proof.
  intros Hc Ho Hv. repeat split.
  - rewrite (class_BoundingBox_run sc thisc bl tr shc Hc). cbv zeta.
    eexists; split; [reflexivity|]. apply writes_only_assigned.
  - rewrite (object_BoundingBox_run so thiso bl tr sho v Ho Hv). cbv zeta.
    eexists; split; [reflexivity|]. apply writes_only_assigned.
  - rewrite (class_IsEmpty_run sc thisc shc Hc). by eexists.
  - rewrite (object_IsEmpty_run so thiso sho v Ho Hv). by eexists.
Qed.
End MoreClaims.

(** C1 (the code does not do this): for the text view of the specification's
    example, origin (0,0), width 10 and height 5, both adapters leave (0,0)
    in the bottom-left variable and (5,10), not (10,5), in the top-right
    variable: [BoundingBox] adds the height to the first coordinate of the
    origin and the width to the second. *)
Theorem C1_BoundingBox_of_the_example_is_5_10 :
  out_params (ClassAdapter.BoundingBox (H := Sample.declared) 1 2 3
                Sample.class_store) 2 3
    = Some (mkPoint (H := Sample.declared) 0 0,
            mkPoint (H := Sample.declared) 5 10)
  /\ out_params (ObjectAdapter.BoundingBox (H := Sample.declared) 1 2 3
                   Sample.object_store) 2 3
    = Some (mkPoint (H := Sample.declared) 0 0,
            mkPoint (H := Sample.declared) 5 10)
  /\ mkPoint (H := Sample.declared) 5 10 <> mkPoint (H := Sample.declared) 10 5.
Proof.
  split; [|split].
  - apply (class_BoundingBox_out_params (H := Sample.declared)
             Sample.class_store 1 2 3 Sample.class_shape 0 0 10 5); done.
  - apply (object_BoundingBox_out_params (H := Sample.declared)
             Sample.object_store 1 2 3 Sample.object_shape Sample.view
             0 0 10 5); done.
  - intros Heq. discriminate Heq.
Qed.

(** ** The theorems above at the sample stores *)

Lemma C4_object_adapter_delegates_witness :
  text_views Sample.client_store !! 7%positive = Some Sample.view
  /\ exists s',
      ObjectAdapter.TextShape_ctor (H := Sample.declared) 1 7
        Sample.client_store = Some (tt, s')
      /\ ObjectAdapter.on_text 1 GetOrigin s' = Some ((0, 0), s')
      /\ ObjectAdapter.on_text 1 GetExtent s' = Some ((10, 5), s')
      /\ ObjectAdapter.IsEmpty 1 s' = Some (false, s')
      /\ ObjectAdapter.BoundingBox 1 2 3 s'
         = Some (tt, mkStore (text_views s') (shapes s')
                       (<[3%positive := mkPoint (H := Sample.declared)
                                          (0 + 5) (0 + 10)]>
                          (<[2%positive := mkPoint (H := Sample.declared)
                                             0 0]> (points s')))
                       (manipulators s')).
Proof.
  split; [reflexivity|].
  apply (C4_object_adapter_delegates (H := Sample.declared)
           Sample.client_store 1 7 2 3 Sample.view).
  reflexivity.
Defined.

Lemma C5_class_BoundingBox_depends_on_origin_and_extent_only_witness :
  shapes Sample.class_store !! 1%positive = Some Sample.class_shape
  /\ shapes Sample.other_class_store !! 4%positive
      = Some Sample.other_class_shape
  /\ GetOrigin (ClassAdapter.TextView_base Sample.class_shape)
      = GetOrigin (ClassAdapter.TextView_base Sample.other_class_shape)
  /\ GetExtent (ClassAdapter.TextView_base Sample.class_shape)
      = GetExtent (ClassAdapter.TextView_base Sample.other_class_shape)
  /\ exists box,
      out_params (ClassAdapter.BoundingBox (H := Sample.declared) 1 2 3
                    Sample.class_store) 2 3 = Some box
      /\ out_params (ClassAdapter.BoundingBox (H := Sample.declared) 4 2 3
                       Sample.other_class_store) 2 3 = Some box.
Proof.
  do 4 (split; [reflexivity|]).
  apply (C5_class_BoundingBox_depends_on_origin_and_extent_only
           (H := Sample.declared) Sample.class_store Sample.other_class_store
           1 4 2 3 Sample.class_shape Sample.other_class_shape);
    reflexivity.
Defined.

Lemma C6_IsEmpty_is_the_wrapped_IsEmpty_witness :
  shapes Sample.other_class_store !! 4%positive
    = Some Sample.other_class_shape
  /\ shapes Sample.object_store !! 1%positive = Some Sample.object_shape
  /\ text_views Sample.object_store !! 7%positive = Some Sample.view
  /\ ClassAdapter.IsEmpty (H := Sample.declared) 4 Sample.other_class_store
      = Some (true, Sample.other_class_store)
  /\ ObjectAdapter.IsEmpty (H := Sample.declared) 1 Sample.object_store
      = Some (false, Sample.object_store).
Proof.
  split; [reflexivity|]. split; [reflexivity|]. split; [reflexivity|].
  apply (C6_IsEmpty_is_the_wrapped_IsEmpty (H := Sample.declared)
           Sample.other_class_store 4 Sample.other_class_shape
           Sample.object_store 1 Sample.object_shape Sample.view);
    reflexivity.
Defined.

Lemma C9_class_and_object_adapter_agree_witness :
  shapes Sample.class_store !! 1%positive = Some Sample.class_shape
  /\ shapes Sample.object_store !! 1%positive = Some Sample.object_shape
  /\ text_views Sample.object_store !! 7%positive = Some Sample.view
  /\ GetOrigin (ClassAdapter.TextView_base Sample.class_shape)
      = @GetOrigin Sample.declared Sample.view
  /\ GetExtent (ClassAdapter.TextView_base Sample.class_shape)
      = @GetExtent Sample.declared Sample.view
  /\ TextView_IsEmpty (ClassAdapter.TextView_base Sample.class_shape)
      = @virtual_IsEmpty Sample.declared Sample.view
  /\ (exists box,
        out_params (ClassAdapter.BoundingBox (H := Sample.declared) 1 2 3
                      Sample.class_store) 2 3 = Some box
        /\ out_params (ObjectAdapter.BoundingBox (H := Sample.declared) 1 2 3
                         Sample.object_store) 2 3 = Some box)
  /\ (exists b,
        result (ClassAdapter.IsEmpty (H := Sample.declared) 1
                  Sample.class_store) = Some b
        /\ result (ObjectAdapter.IsEmpty (H := Sample.declared) 1
                     Sample.object_store) = Some b).
Proof.
  do 6 (split; [reflexivity|]).
  apply (C9_class_and_object_adapter_agree (H := Sample.declared)
           Sample.class_store Sample.object_store 1 1 2 3
           Sample.class_shape Sample.object_shape Sample.view);
    reflexivity.
Defined.

Lemma C10_BoundingBox_and_IsEmpty_are_read_only_witness :
  shapes Sample.other_class_store !! 4%positive
    = Some Sample.other_class_shape
  /\ shapes Sample.object_store !! 1%positive = Some Sample.object_shape
  /\ text_views Sample.object_store !! 7%positive = Some Sample.view
  /\ (exists sc',
        ClassAdapter.BoundingBox (H := Sample.declared) 4 2 3
          Sample.other_class_store = Some (tt, sc')
        /\ writes_only 2 3 Sample.other_class_store sc')
  /\ (exists so',
        ObjectAdapter.BoundingBox (H := Sample.declared) 1 2 3
          Sample.object_store = Some (tt, so')
        /\ writes_only 2 3 Sample.object_store so')
  /\ (exists b, ClassAdapter.IsEmpty (H := Sample.declared) 4
                  Sample.other_class_store
                = Some (b, Sample.other_class_store))
  /\ (exists b, ObjectAdapter.IsEmpty (H := Sample.declared) 1
                  Sample.object_store
                = Some (b, Sample.object_store)).
Proof.
  split; [reflexivity|]. split; [reflexivity|]. split; [reflexivity|].
  apply (C10_BoundingBox_and_IsEmpty_are_read_only (H := Sample.declared)
           Sample.other_class_store Sample.object_store 4 1 2 3
           Sample.other_class_shape Sample.object_shape Sample.view);
    reflexivity.
Defined.

End AdapterFacts.

(* ===================================================================== *)
(** * Properties of the decorators                                        *)
(* ===================================================================== *)

Module DecoratorFacts.
Import Decorator_1.

Lemma append_assoc (a b c : string) : (a +:+ b) +:+ c = a +:+ (b +:+ c).
Proof.
  induction a as [|ch a IH]; [reflexivity|].
  change (String ch ((a +:+ b) +:+ c) = String ch (a +:+ (b +:+ c))).
  by rewrite IH.
Qed.

Lemma append_empty_r (a : string) : a +:+ "" = a.
Proof.
  induction a as [|ch a IH]; [reflexivity|].
  change (String ch (a +:+ "") = String ch a).
  by rewrite IH.
Qed.

(** Whatever the chain, [assemble] only adds to what [cout] holds, and
    what it adds does not depend on what was there. *)
Lemma assemble_appends (b : IBackpack) (cout : ostream) :
  assemble b cout = cout +:+ assemble b "".
Proof.
  induction b as [|d IH|d IH|d IH|d IH]; simpl;
    unfold BackpackDecorator_assemble, put.
  - reflexivity.
  - exact IH.
  - by rewrite IH, append_assoc.
  - by rewrite IH, append_assoc.
  - by rewrite IH, append_assoc.
Qed.

(** One layer: the inner chain writes first, then the layer adds its own
    text, once. *)
Lemma assemble_wrap (l : Layer) (inner : IBackpack) (cout : ostream) :
  assemble (wrap l inner) cout = assemble inner cout +:+ augmentation l.
Proof.
  destruct l; simpl; unfold BackpackDecorator_assemble, put;
    [by rewrite append_empty_r | reflexivity..].
Qed.

(** The [BackpackDecorator] nodes of a chain can be taken out, wherever they
    are, without changing what is written. *)
Lemma assemble_strip (b : IBackpack) (cout : ostream) :
  assemble (strip b) cout = assemble b cout.
Proof.
  revert cout.
  induction b as [|d IH|d IH|d IH|d IH]; intros cout; simpl;
    unfold BackpackDecorator_assemble; by rewrite ?IH.
Qed.

(** The chain of [main] is the composition of four layers around a plain
    backpack, [BackpackDecorator] innermost and [WithWaterBottle]
    outermost. *)
Lemma pBackpack_layers :
  pBackpack = compose PlainBackpack [Bare; LaptopSlot; USBCharge; WaterBottle].
Proof. reflexivity. Qed.

(** C2 as stated fails: started on an empty [cout], [main] does not write
    exactly the description; the text begins with a line feed and a
    space. *)
Lemma C2_main_output_is_not_the_bare_description :
  snd (main "")
  <> "ShoulderStraps and mainCompartment + LaptopSlot + USBCharge + WaterBottle".
Proof. vm_compute. intros Heq. discriminate Heq. Qed.

(** C2, amended: [main] assembles the chain plain base, [BackpackDecorator],
    [WithLaptopSlot], [WithUSBCharge], [WithWaterBottle] and returns 0; it
    adds to [cout] exactly a line feed, a space and
    "ShoulderStraps and mainCompartment + LaptopSlot + USBCharge +
    WaterBottle": the texts in layering order, that of the outermost layer
    last. *)
Theorem C2_main_writes_the_description_after_a_line_feed (cout : ostream) :
  main cout =
    (0, cout +:+ LF +:+
        " ShoulderStraps and mainCompartment + LaptopSlot + USBCharge + WaterBottle").
Proof.
  unfold main. cbv zeta. by rewrite assemble_appends.
Qed.

(** C3: for every base and every list of N >= 0 decorator layers wrapped
    around it (innermost first), [assemble] on the outermost node writes
    what the base writes and then the text of each layer once, in the order
    from the innermost layer to the outermost. *)
Theorem C3_every_layer_once_inner_to_outer
    (base : IBackpack) (layers : list Layer) (cout : ostream) :
  assemble (compose base layers) cout
  = assemble base cout +:+ texts (map augmentation layers).
Proof.
  revert base.
  induction layers as [|l layers IH]; intros base; simpl.
  - by rewrite append_empty_r.
  - unfold compose in *; simpl.
    by rewrite IH, assemble_wrap, append_assoc.
Qed.

(** C8: a bare [BackpackDecorator] around any backpack writes exactly what
    the backpack writes, so the chain of [main] writes what the same chain
    without its [BackpackDecorator] layer writes. *)
Theorem C8_bare_decorator_is_transparent :
  (forall (b : IBackpack) (cout : ostream),
      assemble (BackpackDecorator b) cout = assemble b cout)
  /\ (forall cout : ostream,
      assemble pBackpack cout
      = assemble (WithWaterBottle (WithUSBCharge (WithLaptopSlot PlainBackpack)))
                 cout).
Proof.
  split.
  - intros b cout. reflexivity.
  - intros cout. symmetry. exact (assemble_strip pBackpack cout).
Qed.

(** The forwarding [Decorator] of [Decorator.cpp] draws and resizes as its
    component does. *)
Lemma Decorator_forwards {Display : Type}
    (c : Decorator.VisualComponent Display) (d : Display) :
  Decorator.Draw (Decorator.Decorator c) d = Decorator.Draw c d
  /\ Decorator.Resize (Decorator.Decorator c) d = Decorator.Resize c d.
Proof. split; reflexivity. Qed.

End DecoratorFacts.

(* ===================================================================== *)
(** * More about the backpack chain                                       *)
(* ===================================================================== *)

Module BackpackFacts.
Import Decorator_1 BackpackHeap DecoratorFacts.

Lemma texts_app (l1 l2 : list string) :
  texts (l1 ++ l2) = texts l1 +:+ texts l2.
Proof.
  induction l1 as [|a l1 IH]; [reflexivity|].
  change (a +:+ texts (l1 ++ l2) = (a +:+ texts l1) +:+ texts l2).
  by rewrite IH, append_assoc.
Qed.

Lemma compose_app (base : IBackpack) (l1 l2 : list Layer) :
  compose base (l1 ++ l2) = compose (compose base l1) l2.
Proof. unfold compose. apply fold_left_app. Qed.

(** Every chain is the composition of its layers around a plain backpack,
    and the layers of a composition are the layers that were composed. *)
Lemma compose_layers_of (b : IBackpack) :
  compose PlainBackpack (layers_of b) = b.
Proof.
  induction b as [|d IH|d IH|d IH|d IH]; simpl; [reflexivity|..];
    by rewrite compose_app, IH.
Qed.

Lemma layers_of_compose (base : IBackpack) (layers : list Layer) :
  layers_of (compose base layers) = layers_of base ++ layers.
Proof.
  revert base.
  induction layers as [|l layers IH]; intros base.
  - simpl. by rewrite app_nil_r.
  - change (compose base (l :: layers)) with (compose (wrap l base) layers).
    rewrite IH. destruct l; simpl; by rewrite <- app_assoc.
Qed.

Lemma assemble_compose (base : IBackpack) (layers : list Layer)
    (cout : ostream) :
  assemble (compose base layers) cout
  = assemble base cout +:+ texts (map augmentation layers).
Proof.
  revert base.
  induction layers as [|l layers IH]; intros base; simpl.
  - by rewrite append_empty_r.
  - change (compose base (l :: layers)) with (compose (wrap l base) layers).
    by rewrite IH, assemble_wrap, append_assoc.
Qed.

(** X1: whatever the chain, [assemble] keeps what [cout] held and adds
    to it the text of the plain backpack first and then the text of each
    decorator layer, from the innermost to the outermost. *)
Theorem assemble_normal_form (b : IBackpack) (cout : ostream) :
  assemble b cout
  = cout +:+ (LF +:+ " ShoulderStraps and mainCompartment")
         +:+ texts (map augmentation (layers_of b)).
Proof.
  rewrite <- (compose_layers_of b) at 1.
  rewrite assemble_compose. simpl. unfold put.
  by rewrite append_assoc.
Qed.

(** The texts of the bare layers are empty. *)
Lemma texts_features (layers : list Layer) :
  texts (map augmentation (features layers))
  = texts (map augmentation layers).
Proof.
  induction layers as [|l layers IH]; [reflexivity|].
  destruct l; simpl; rewrite ?IH; reflexivity.
Qed.

(** No text of a layer is the beginning of another: a sequence of texts can
    be read back. *)
Lemma texts_read_back (l1 l2 : list Layer) :
  texts (map augmentation l1) = texts (map augmentation l2) ->
  features l1 = features l2.
Proof.
  revert l2.
  induction l1 as [|a l1 IH1]; intros l2.
  - induction l2 as [|b l2 IH2]; [reflexivity|].
    destruct b; simpl; intros Heq; [by apply IH2|..];
      cbv [String.append] in Heq; discriminate Heq.
  - destruct a; simpl.
    + apply IH1.
    + induction l2 as [|b l2 IH2]; simpl; intros Heq.
      * cbv [String.append] in Heq; discriminate Heq.
      * destruct b; simpl in *;
          [by apply IH2
          | f_equal; apply IH1; by apply (inj (String.app " + LaptopSlot"))
          | cbv [String.append] in Heq; discriminate Heq
          | cbv [String.append] in Heq; discriminate Heq].
    + induction l2 as [|b l2 IH2]; simpl; intros Heq.
      * cbv [String.append] in Heq; discriminate Heq.
      * destruct b; simpl in *;
          [by apply IH2
          | cbv [String.append] in Heq; discriminate Heq
          | f_equal; apply IH1; by apply (inj (String.app " + USBCharge"))
          | cbv [String.append] in Heq; discriminate Heq].
    + induction l2 as [|b l2 IH2]; simpl; intros Heq.
      * cbv [String.append] in Heq; discriminate Heq.
      * destruct b; simpl in *;
          [by apply IH2
          | cbv [String.append] in Heq; discriminate Heq
          | cbv [String.append] in Heq; discriminate Heq
          | f_equal; apply IH1; by apply (inj (String.app " + WaterBottle"))].
Qed.

(** X2: two compositions around the same base write the same text exactly
    when they have the same feature layers in the same order (the bare
    [BackpackDecorator] layers do not count): the order of the layers
    shows in the output. *)
Theorem same_output_iff_same_features
    (base : IBackpack) (l1 l2 : list Layer) (cout : ostream) :
  assemble (compose base l1) cout = assemble (compose base l2) cout
  <-> features l1 = features l2.
Proof.
  rewrite !assemble_compose. split.
  - intros Heq. apply texts_read_back.
    by apply (inj (String.app (assemble base cout))).
  - intros Heq.
    by rewrite <- (texts_features l1), <- (texts_features l2), Heq.
Qed.

End BackpackFacts.

(* ===================================================================== *)
(** * The backpack chain in memory                                        *)
(* ===================================================================== *)

Module BackpackHeapFacts.
Import Decorator_1 BackpackHeap.

Lemma nodes_wrap (l : Layer) (d : IBackpack) : nodes (wrap l d) = S (nodes d).
Proof.
  unfold nodes. destruct l; simpl; rewrite length_app; simpl; lia.
Qed.

Lemma construct_wrap (l : Layer) (d : IBackpack) (h : gmap positive object) :
  construct (wrap l d) h
  = new (Decorated l (construct d h).1) (construct d h).2.
Proof. destruct l; simpl; by destruct (construct d h). Qed.

(** [new] leaves the objects that were there where they were, and the
    object it makes is one more. *)
Lemma new_extends (o : object) (h : gmap positive object) :
  h !! (new o h).1 = None
  /\ (new o h).2 !! (new o h).1 = Some o
  /\ h ⊆ (new o h).2
  /\ size (new o h).2 = S (size h).
Proof.
  unfold new; simpl.
  assert (Hfresh : h !! fresh (dom h) = None)
    by apply not_elem_of_dom, is_fresh.
  split; [exact Hfresh|]. split; [apply lookup_insert_eq|].
  split; [by apply insert_subseteq | by apply map_size_insert_None].
Qed.

(** Building a chain allocates one object per node and moves none. *)
Lemma construct_extends (b : IBackpack) (h : gmap positive object) :
  h !! (construct b h).1 = None
  /\ h ⊆ (construct b h).2
  /\ size (construct b h).2 = (size h + nodes b)%nat.
Proof.
  revert h.
  assert (Hstep : forall l d,
    (forall h, h !! (construct d h).1 = None
               /\ h ⊆ (construct d h).2
               /\ size (construct d h).2 = (size h + nodes d)%nat) ->
    forall h, h !! (construct (wrap l d) h).1 = None
              /\ h ⊆ (construct (wrap l d) h).2
              /\ size (construct (wrap l d) h).2
                 = (size h + nodes (wrap l d))%nat).
  { intros l d IH h.
    rewrite construct_wrap, nodes_wrap.
    destruct (IH h) as (_ & Hsub & Hsize).
    destruct (new_extends (Decorated l (construct d h).1) (construct d h).2)
      as (Hnone & _ & Hsub' & Hsize').
    split; [by eapply lookup_weaken_None|].
    split; [by etrans|].
    rewrite Hsize', Hsize. lia. }
  induction b as [|d IH|d IH|d IH|d IH]; intros h.
  - destruct (new_extends Plain h) as (Hnone & _ & Hsub & Hsize).
    change (construct PlainBackpack h) with (new Plain h).
    split; [exact Hnone|]. split; [exact Hsub|].
    rewrite Hsize. unfold nodes; simpl. lia.
  - exact (Hstep Bare d IH h).
  - exact (Hstep LaptopSlot d IH h).
  - exact (Hstep USBCharge d IH h).
  - exact (Hstep WaterBottle d IH h).
Qed.

(** What [assemble_at] does at an object, by its class. *)
Lemma assemble_at_decorated (fuel : nat) (h : gmap positive object)
    (this q : positive) (l : Layer) (cout : ostream) :
  h !! this = Some (Decorated l q) ->
  assemble_at (S fuel) h this cout
  = match assemble_at fuel h q cout with
    | Some cout => Some (cout +:+ augmentation l)
    | None => None
    end.
Proof.
  intros Hthis. simpl. rewrite Hthis.
  destruct (assemble_at fuel h q cout) as [c|]; [|reflexivity].
  destruct l; simpl; unfold put; [|reflexivity..].
  by rewrite DecoratorFacts.append_empty_r.
Qed.

(** The chain built in memory behaves as the chain: in the store
    [construct] leaves, and in every store that extends it, [assemble_at]
    on the pointer [construct] returns gives what [assemble] gives as soon
    as [fuel] allows one nested call per object, and nothing before. *)
Lemma assemble_at_construct (b : IBackpack) :
  forall (h h' : gmap positive object) (fuel : nat) (cout : ostream),
    (construct b h).2 ⊆ h' ->
    assemble_at fuel h' (construct b h).1 cout
    = if decide (nodes b <= fuel)%nat then Some (assemble b cout) else None.
Proof.
  assert (Hstep : forall l d,
    (forall h h' fuel cout, (construct d h).2 ⊆ h' ->
       assemble_at fuel h' (construct d h).1 cout
       = if decide (nodes d <= fuel)%nat then Some (assemble d cout)
         else None) ->
    forall h h' fuel cout, (construct (wrap l d) h).2 ⊆ h' ->
       assemble_at fuel h' (construct (wrap l d) h).1 cout
       = if decide (nodes (wrap l d) <= fuel)%nat
         then Some (assemble (wrap l d) cout) else None).
  { intros l d IH h h' fuel cout.
    rewrite construct_wrap, nodes_wrap, DecoratorFacts.assemble_wrap.
    destruct (new_extends (Decorated l (construct d h).1) (construct d h).2)
      as (_ & Hthis & Hsub & _).
    intros Hh'.
    destruct fuel as [|fuel]; [by rewrite decide_False by lia|].
    rewrite (assemble_at_decorated fuel h' _ (construct d h).1 l cout)
      by (by eapply lookup_weaken).
    rewrite (IH h h' fuel cout) by (by etrans).
    destruct (decide (nodes d <= fuel)%nat).
    - by rewrite decide_True by lia.
    - by rewrite decide_False by lia. }
  induction b as [|d IH|d IH|d IH|d IH].
  - intros h h' fuel cout Hh'.
    destruct (new_extends Plain h) as (_ & Hthis & _ & _).
    change (construct PlainBackpack h) with (new Plain h) in *.
    destruct fuel as [|fuel]; [reflexivity|].
    cbn [assemble_at].
    by rewrite (lookup_weaken _ _ _ _ Hthis Hh').
  - exact (Hstep Bare d IH).
  - exact (Hstep LaptopSlot d IH).
  - exact (Hstep USBCharge d IH).
  - exact (Hstep WaterBottle d IH).
Qed.

(** X3: a chain built with nested [new] expressions assembles in memory
    to what the chain assembles to, whatever the free store held before, as
    soon as one nested call per object of the chain is allowed; with fewer
    nested calls there is no result. *)
Theorem construct_then_assemble (b : IBackpack) (h : gmap positive object)
    (fuel : nat) (cout : ostream) :
  assemble_at fuel (construct b h).2 (construct b h).1 cout
  = if decide (nodes b <= fuel)%nat then Some (assemble b cout) else None.
Proof. by apply assemble_at_construct. Qed.

(** X4: [delete] on the outermost decorator of a chain releases that one
    object only.  The free store is then exactly what it was when the inner
    chain had been built: the objects of the inner chain, one per node, are
    all still allocated, and the inner chain still assembles. *)
Theorem delete_releases_the_outermost_object_only
    (l : Layer) (d : IBackpack) (h : gmap positive object) :
  delete_object (construct (wrap l d) h).1 (construct (wrap l d) h).2
    = Some (construct d h).2
  /\ size (construct d h).2 = (size h + nodes d)%nat
  /\ forall cout : ostream,
      assemble_at (nodes d) (construct d h).2 (construct d h).1 cout
      = Some (assemble d cout).
Proof.
  split; [|split].
  - rewrite construct_wrap.
    destruct (new_extends (Decorated l (construct d h).1) (construct d h).2)
      as (Hnone & Hthis & _ & _).
    unfold delete_object. rewrite Hthis.
    unfold new in *; simpl in *.
    by rewrite delete_insert_id.
  - apply construct_extends.
  - intros cout. rewrite construct_then_assemble.
    by rewrite decide_True by lia.
Qed.

(** X13: two chains built one after the other do not disturb each other:
    in the free store that holds both, each assembles to its own text (given
    room for one nested call per object). *)
Theorem two_chains_are_independent (b1 b2 : IBackpack)
    (h : gmap positive object) (fuel : nat) (cout : ostream) :
  let first := construct b1 h in
  let second := construct b2 first.2 in
  first.1 <> second.1
  /\ assemble_at fuel second.2 first.1 cout
     = (if decide (nodes b1 <= fuel)%nat then Some (assemble b1 cout)
        else None)
  /\ assemble_at fuel second.2 second.1 cout
     = (if decide (nodes b2 <= fuel)%nat then Some (assemble b2 cout)
        else None).
Proof.
  intros first second.
  destruct (construct_extends b2 first.2) as (Hfresh & Hsub & _).
  fold second in Hfresh, Hsub.
  split; [|split].
  - intros Heq.
    assert (Hlive : is_Some (first.2 !! first.1)).
    { unfold first. destruct b1; simpl;
        try destruct (construct b1 h); simpl; rewrite lookup_insert_eq;
        by eexists. }
    rewrite Heq, Hfresh in Hlive. by destruct Hlive.
  - by apply assemble_at_construct.
  - by apply assemble_at_construct.
Qed.

(** A plain backpack alone is released whole. *)
Lemma delete_plain (h : gmap positive object) :
  delete_object (construct PlainBackpack h).1 (construct PlainBackpack h).2
  = Some h.
Proof.
  change (construct PlainBackpack h) with (new Plain h).
  destruct (new_extends Plain h) as (Hnone & Hthis & _ & _).
  unfold delete_object. rewrite Hthis.
  unfold new in *; simpl in *.
  by rewrite delete_insert_id.
Qed.

(** X5: [main], run with room for five nested calls on any free store,
    returns 0, has written a line feed, a space and the description, and
    leaves four objects more in the free store than it found: the plain
    backpack and the three inner decorators are never deleted. *)
Theorem main_leaves_four_objects (fuel : nat) (h : gmap positive object)
    (cout : ostream) :
  (5 <= fuel)%nat ->
  exists h' : gmap positive object,
    main fuel h cout
    = Some (0, cout +:+ LF +:+
               " ShoulderStraps and mainCompartment + LaptopSlot + USBCharge + WaterBottle",
            h')
    /\ h ⊆ h'
    /\ size h' = (size h + 4)%nat.
Proof.
  intros Hfuel.
  set (inner := WithUSBCharge (WithLaptopSlot (BackpackDecorator PlainBackpack))).
  pose proof (construct_then_assemble pBackpack h fuel cout) as Hrun.
  rewrite decide_True in Hrun by (vm_compute; lia).
  destruct (delete_releases_the_outermost_object_only WaterBottle inner h)
    as (Hdel & Hsize & _).
  change (wrap WaterBottle inner) with pBackpack in Hdel.
  exists (construct inner h).2.
  split; [|split].
  - unfold main.
    destruct (construct pBackpack h) as [p h2]; cbn [fst snd] in Hrun, Hdel.
    rewrite Hrun, Hdel, DecoratorFacts.assemble_appends.
    reflexivity.
  - apply construct_extends.
  - rewrite Hsize. reflexivity.
Qed.

Lemma main_leaves_four_objects_witness :
  (5 <= 5)%nat
  /\ exists h' : gmap positive object,
      main 5 ∅ ""
      = Some (0, "" +:+ LF +:+
                 " ShoulderStraps and mainCompartment + LaptopSlot + USBCharge + WaterBottle",
              h')
      /\ (∅ : gmap positive object) ⊆ h'
      /\ size h' = (size (∅ : gmap positive object) + 4)%nat.
Proof.
  split; [lia|].
  apply (main_leaves_four_objects 5 ∅ ""). lia.
Defined.

End BackpackHeapFacts.

(* ===================================================================== *)
(** * More about the forwarding decorator of Decorator.cpp                *)
(* ===================================================================== *)

Module VisualDecoratorFacts.

(** X6: any number of plain [Decorator]s stacked around a component is
    transparent: [Draw] and [Resize] on the outermost do what the component
    does. *)
Theorem decorated_forwards {Display : Type} (n : nat)
    (c : Decorator.VisualComponent Display) (d : Display) :
  Decorator.Draw (Decorator.decorated n c) d = Decorator.Draw c d
  /\ Decorator.Resize (Decorator.decorated n c) d = Decorator.Resize c d.
Proof.
  induction n as [|n [IHdraw IHresize]]; [split; reflexivity|].
  split; simpl; assumption.
Qed.

End VisualDecoratorFacts.

(* ===================================================================== *)
(** * More about the adapters                                             *)
(* ===================================================================== *)

Module AdapterMoreFacts.
Import Adapter AdapterFacts.

Section More.
Context `{Declared}.

(** Making the two assignments of [BoundingBox] a second time changes
    nothing. *)
Lemma assign_twice (m : gmap addr Point) (bl tr : addr) (p q : Point) :
  <[tr := q]> (<[bl := p]> (<[tr := q]> (<[bl := p]> m)))
  = <[tr := q]> (<[bl := p]> m).
Proof.
  apply map_eq. intros i.
  rewrite !lookup_insert. repeat case_decide; congruence.
Qed.

(** X7: what [BoundingBox] computes, in both variants, for every text view
    and two distinct variables: with [(x, y)] the origin and
    [(width, height)] the extent, the bottom-left variable receives
    [Point(x, y)] and the top-right variable [Point(x + height, y + width)]. *)
Theorem BoundingBox_points
    (sc : Store ClassAdapter.TextShape) (so : Store ObjectAdapter.TextShape)
    (thisc thiso bl tr : addr)
    (shc : ClassAdapter.TextShape) (sho : ObjectAdapter.TextShape)
    (v : TextView) (x y width height : Coord) :
  shapes sc !! thisc = Some shc ->
  shapes so !! thiso = Some sho ->
  text_views so !! ObjectAdapter._text sho = Some v ->
  GetOrigin (ClassAdapter.TextView_base shc) = (x, y) ->
  GetExtent (ClassAdapter.TextView_base shc) = (width, height) ->
  GetOrigin v = (x, y) ->
  GetExtent v = (width, height) ->
  bl <> tr ->
  out_params (ClassAdapter.BoundingBox thisc bl tr sc) bl tr
    = Some (mkPoint x y, mkPoint (x + height)%coord (y + width)%coord)
  /\ out_params (ObjectAdapter.BoundingBox thiso bl tr so) bl tr
    = Some (mkPoint x y, mkPoint (x + height)%coord (y + width)%coord).
Proof.
  intros Hc Ho Hv Hco Hce Hoo Hoe Hne.
  rewrite (class_BoundingBox_run sc thisc bl tr shc Hc).
  rewrite (object_BoundingBox_run so thiso bl tr sho v Ho Hv).
  cbv zeta. rewrite !out_params_assigned, Hco, Hce, Hoo, Hoe; simpl.
  by rewrite decide_False.
Qed.

(** X8: when both references name the same [Point] variable, that
    variable holds the top-right point after the call: the bottom-left
    point, assigned first, is overwritten. *)
Theorem BoundingBox_same_variable
    (sc : Store ClassAdapter.TextShape) (so : Store ObjectAdapter.TextShape)
    (thisc thiso p : addr)
    (shc : ClassAdapter.TextShape) (sho : ObjectAdapter.TextShape)
    (v : TextView) :
  shapes sc !! thisc = Some shc ->
  shapes so !! thiso = Some sho ->
  text_views so !! ObjectAdapter._text sho = Some v ->
  (exists sc',
      ClassAdapter.BoundingBox thisc p p sc = Some (tt, sc')
      /\ points sc' !! p
         = Some (mkPoint
                   (fst (GetOrigin (ClassAdapter.TextView_base shc))
                    + snd (GetExtent (ClassAdapter.TextView_base shc)))%coord
                   (snd (GetOrigin (ClassAdapter.TextView_base shc))
                    + fst (GetExtent (ClassAdapter.TextView_base shc)))%coord))
  /\ (exists so',
      ObjectAdapter.BoundingBox thiso p p so = Some (tt, so')
      /\ points so' !! p
         = Some (mkPoint (fst (GetOrigin v) + snd (GetExtent v))%coord
                         (snd (GetOrigin v) + fst (GetExtent v))%coord)).
Proof.
  intros Hc Ho Hv. split.
  - rewrite (class_BoundingBox_run sc thisc p p shc Hc). cbv zeta.
    eexists; split; [reflexivity|]. simpl. apply lookup_insert_eq.
  - rewrite (object_BoundingBox_run so thiso p p sho v Ho Hv). cbv zeta.
    eexists; split; [reflexivity|]. simpl. apply lookup_insert_eq.
Qed.

(** X9: calling [BoundingBox] twice in a row with the same two variables
    leaves the store exactly as calling it once. *)
Theorem BoundingBox_twice
    (sc : Store ClassAdapter.TextShape) (so : Store ObjectAdapter.TextShape)
    (thisc thiso bl tr : addr)
    (shc : ClassAdapter.TextShape) (sho : ObjectAdapter.TextShape)
    (v : TextView) :
  shapes sc !! thisc = Some shc ->
  shapes so !! thiso = Some sho ->
  text_views so !! ObjectAdapter._text sho = Some v ->
  (ClassAdapter.BoundingBox thisc bl tr ;;;
   ClassAdapter.BoundingBox thisc bl tr) sc
    = ClassAdapter.BoundingBox thisc bl tr sc
  /\ (ObjectAdapter.BoundingBox thiso bl tr ;;;
      ObjectAdapter.BoundingBox thiso bl tr) so
    = ObjectAdapter.BoundingBox thiso bl tr so
  /\ is_Some (ClassAdapter.BoundingBox thisc bl tr sc)
  /\ is_Some (ObjectAdapter.BoundingBox thiso bl tr so).
Proof.
  intros Hc Ho Hv.
  pose proof (class_BoundingBox_run sc thisc bl tr shc Hc) as Hrunc.
  pose proof (object_BoundingBox_run so thiso bl tr sho v Ho Hv) as Hruno.
  cbv zeta in Hrunc, Hruno.
  split; [|split; [|split]].
  - unfold bind at 1. rewrite Hrunc.
    rewrite (class_BoundingBox_run _ thisc bl tr shc) by exact Hc.
    cbv zeta; simpl. by rewrite assign_twice.
  - unfold bind at 1. rewrite Hruno.
    rewrite (object_BoundingBox_run _ thiso bl tr sho v) by assumption.
    cbv zeta; simpl. by rewrite assign_twice.
  - rewrite Hrunc. by eexists.
  - rewrite Hruno. by eexists.
Qed.

(** X10: the constructor of the object adapter takes any pointer, also one
    to no text view.  The adapter so made has no defined [BoundingBox] and
    no defined [IsEmpty] (both follow [_text]); [CreateManipulator] still
    returns. *)
Theorem TextShape_over_no_view (s : Store ObjectAdapter.TextShape)
    (this t bl tr : addr) :
  text_views s !! t = None ->
  exists s',
    ObjectAdapter.TextShape_ctor this t s = Some (tt, s')
    /\ ObjectAdapter.BoundingBox this bl tr s' = None
    /\ ObjectAdapter.IsEmpty this s' = None
    /\ is_Some (ObjectAdapter.CreateManipulator this s').
Proof.
  intros Hnone.
  destruct (TextShape_ctor_run s this t) as (s' & Hrun & Hsh & Htv & _).
  exists s'. split; [exact Hrun|].
  assert (Hnone' : text_views s' !! ObjectAdapter._text
                     (ObjectAdapter.mkTextShape t) = None)
    by (simpl; by rewrite Htv).
  split; [by apply object_BoundingBox_dangling with (sh := ObjectAdapter.mkTextShape t)|].
  split.
  - unfold ObjectAdapter.IsEmpty, ObjectAdapter.on_text, bind,
      load_shape, load_view.
    by rewrite Hsh, Hnone'.
  - by eexists.
Qed.

(** X11: two calls of [CreateManipulator] in a row return two different
    addresses, both unused before; afterwards each holds a
    [TextManipulator] made for [this], and the store holds two manipulators
    more: no call reuses or releases an object. *)
Theorem CreateManipulator_twice
    (sc : Store ClassAdapter.TextShape) (so : Store ObjectAdapter.TextShape)
    (thisc thiso : addr) :
  (exists (m1 m2 : addr) (sc' : Store ClassAdapter.TextShape),
      (m1 <- ClassAdapter.CreateManipulator thisc ;;
       m2 <- ClassAdapter.CreateManipulator thisc ;;
       ret (m1, m2)) sc = Some ((m1, m2), sc')
      /\ m1 <> m2
      /\ manipulators sc !! m1 = None
      /\ manipulators sc !! m2 = None
      /\ manipulators sc' !! m1 = Some (TextManipulator thisc)
      /\ manipulators sc' !! m2 = Some (TextManipulator thisc)
      /\ size (manipulators sc') = S (S (size (manipulators sc))))
  /\ (exists (m1 m2 : addr) (so' : Store ObjectAdapter.TextShape),
      (m1 <- ObjectAdapter.CreateManipulator thiso ;;
       m2 <- ObjectAdapter.CreateManipulator thiso ;;
       ret (m1, m2)) so = Some ((m1, m2), so')
      /\ m1 <> m2
      /\ manipulators so !! m1 = None
      /\ manipulators so !! m2 = None
      /\ manipulators so' !! m1 = Some (TextManipulator thiso)
      /\ manipulators so' !! m2 = Some (TextManipulator thiso)
      /\ size (manipulators so') = S (S (size (manipulators so)))).
Proof.
  assert (Hnew : forall TS (s : Store TS) (this : addr),
    exists (m1 m2 : addr) (s' : Store TS),
      (m1 <- new_manipulator (TextManipulator this) ;;
       m2 <- new_manipulator (TextManipulator this) ;;
       ret (m1, m2)) s = Some ((m1, m2), s')
      /\ m1 <> m2
      /\ manipulators s !! m1 = None
      /\ manipulators s !! m2 = None
      /\ manipulators s' !! m1 = Some (TextManipulator this)
      /\ manipulators s' !! m2 = Some (TextManipulator this)
      /\ size (manipulators s') = S (S (size (manipulators s)))).
  { intros TS s this.
    destruct (new_manipulator_run (TextManipulator this) s)
      as (m1 & s1 & Hrun1 & Hfresh1 & Hm1 & _).
    destruct (new_manipulator_run (TextManipulator this) s1)
      as (m2 & s2 & Hrun2 & Hfresh2 & Hm2 & _).
    assert (Hne : m1 <> m2).
    { intros ->. rewrite Hm1, lookup_insert_eq in Hfresh2. discriminate. }
    exists m1, m2, s2.
    split; [unfold bind; rewrite Hrun1, Hrun2; reflexivity|].
    split; [exact Hne|]. split; [exact Hfresh1|].
    split.
    { rewrite Hm1, lookup_insert_ne in Hfresh2 by exact Hne. exact Hfresh2. }
    split; [rewrite Hm2, lookup_insert_ne, Hm1 by congruence;
            apply lookup_insert_eq|].
    split; [rewrite Hm2; apply lookup_insert_eq|].
    rewrite Hm2, map_size_insert_None by exact Hfresh2.
    by rewrite Hm1, map_size_insert_None. }
  split.
  - exact (Hnew _ sc thisc).
  - exact (Hnew _ so thiso).
Qed.

(** X12: object adapters do not own their text view and do not disturb
    one another: after two adapters have been constructed at different
    addresses, over two text views or over one and the same, each answers
    [IsEmpty] for the view it was given, and the text views are as they
    were. *)
Theorem two_object_adapters (s : Store ObjectAdapter.TextShape)
    (this1 this2 t1 t2 : addr) (v1 v2 : TextView) :
  text_views s !! t1 = Some v1 ->
  text_views s !! t2 = Some v2 ->
  this1 <> this2 ->
  exists s',
    (ObjectAdapter.TextShape_ctor this1 t1 ;;;
     ObjectAdapter.TextShape_ctor this2 t2) s = Some (tt, s')
    /\ text_views s' = text_views s
    /\ ObjectAdapter.IsEmpty this1 s' = Some (virtual_IsEmpty v1, s')
    /\ ObjectAdapter.IsEmpty this2 s' = Some (virtual_IsEmpty v2, s').
Proof.
  intros Hv1 Hv2 Hne.
  eexists. split; [reflexivity|]. simpl.
  split; [reflexivity|]. split.
  - apply object_IsEmpty_run with (sh := ObjectAdapter.mkTextShape t1);
      simpl; [|exact Hv1].
    rewrite lookup_insert_ne by congruence. apply lookup_insert_eq.
  - apply object_IsEmpty_run with (sh := ObjectAdapter.mkTextShape t2);
      simpl; [|exact Hv2].
    apply lookup_insert_eq.
Qed.
End More.

(** ** The theorems above at the sample stores *)

Lemma BoundingBox_points_witness :
  shapes Sample.class_store !! 1%positive = Some Sample.class_shape
  /\ shapes Sample.object_store !! 1%positive = Some Sample.object_shape
  /\ text_views Sample.object_store !! 7%positive = Some Sample.view
  /\ (2 <> 3)%positive
  /\ out_params (ClassAdapter.BoundingBox (H := Sample.declared) 1 2 3
                   Sample.class_store) 2 3
     = Some (mkPoint (H := Sample.declared) 0 0,
             mkPoint (H := Sample.declared) (0 + 5) (0 + 10))
  /\ out_params (ObjectAdapter.BoundingBox (H := Sample.declared) 1 2 3
                   Sample.object_store) 2 3
     = Some (mkPoint (H := Sample.declared) 0 0,
             mkPoint (H := Sample.declared) (0 + 5) (0 + 10)).
Proof.
  do 3 (split; [reflexivity|]). split; [discriminate|].
  apply (BoundingBox_points (H := Sample.declared)
           Sample.class_store Sample.object_store 1 1 2 3
           Sample.class_shape Sample.object_shape Sample.view 0 0 10 5);
    (reflexivity || discriminate).
Defined.

Lemma BoundingBox_same_variable_witness :
  shapes Sample.class_store !! 1%positive = Some Sample.class_shape
  /\ shapes Sample.object_store !! 1%positive = Some Sample.object_shape
  /\ text_views Sample.object_store !! 7%positive = Some Sample.view
  /\ (exists sc',
        ClassAdapter.BoundingBox (H := Sample.declared) 1 2 2
          Sample.class_store = Some (tt, sc')
        /\ points sc' !! 2%positive
           = Some (mkPoint (H := Sample.declared) 5 10))
  /\ (exists so',
        ObjectAdapter.BoundingBox (H := Sample.declared) 1 2 2
          Sample.object_store = Some (tt, so')
        /\ points so' !! 2%positive
           = Some (mkPoint (H := Sample.declared) 5 10)).
Proof.
  do 3 (split; [reflexivity|]).
  apply (BoundingBox_same_variable (H := Sample.declared)
           Sample.class_store Sample.object_store 1 1 2
           Sample.class_shape Sample.object_shape Sample.view);
    reflexivity.
Defined.

Lemma BoundingBox_twice_witness :
  shapes Sample.other_class_store !! 4%positive
    = Some Sample.other_class_shape
  /\ shapes Sample.object_store !! 1%positive = Some Sample.object_shape
  /\ text_views Sample.object_store !! 7%positive = Some Sample.view
  /\ (ClassAdapter.BoundingBox (H := Sample.declared) 4 2 3 ;;;
      ClassAdapter.BoundingBox (H := Sample.declared) 4 2 3)
       Sample.other_class_store
     = ClassAdapter.BoundingBox (H := Sample.declared) 4 2 3
         Sample.other_class_store
  /\ (ObjectAdapter.BoundingBox (H := Sample.declared) 1 2 3 ;;;
      ObjectAdapter.BoundingBox (H := Sample.declared) 1 2 3)
       Sample.object_store
     = ObjectAdapter.BoundingBox (H := Sample.declared) 1 2 3
         Sample.object_store
  /\ is_Some (ClassAdapter.BoundingBox (H := Sample.declared) 4 2 3
                Sample.other_class_store)
  /\ is_Some (ObjectAdapter.BoundingBox (H := Sample.declared) 1 2 3
                Sample.object_store).
Proof.
  do 3 (split; [reflexivity|]).
  apply (BoundingBox_twice (H := Sample.declared)
           Sample.other_class_store Sample.object_store 4 1 2 3
           Sample.other_class_shape Sample.object_shape Sample.view);
    reflexivity.
Defined.

Lemma TextShape_over_no_view_witness :
  text_views Sample.empty_store !! 7%positive = None
  /\ exists s',
      ObjectAdapter.TextShape_ctor (H := Sample.declared) 1 7
        Sample.empty_store = Some (tt, s')
      /\ ObjectAdapter.BoundingBox 1 2 3 s' = None
      /\ ObjectAdapter.IsEmpty 1 s' = None
      /\ is_Some (ObjectAdapter.CreateManipulator 1 s').
Proof.
  split; [reflexivity|].
  apply (TextShape_over_no_view (H := Sample.declared)
           Sample.empty_store 1 7 2 3).
  reflexivity.
Defined.

Lemma two_object_adapters_witness :
  text_views Sample.two_views_store !! 7%positive = Some Sample.view
  /\ text_views Sample.two_views_store !! 8%positive = Some Sample.other_view
  /\ (1 <> 2)%positive
  /\ exists s',
      (ObjectAdapter.TextShape_ctor (H := Sample.declared) 1 7 ;;;
       ObjectAdapter.TextShape_ctor (H := Sample.declared) 2 8)
        Sample.two_views_store = Some (tt, s')
      /\ text_views s' = text_views Sample.two_views_store
      /\ ObjectAdapter.IsEmpty 1 s' = Some (false, s')
      /\ ObjectAdapter.IsEmpty 2 s' = Some (true, s').
Proof.
  do 2 (split; [reflexivity|]). split; [discriminate|].
  apply (two_object_adapters (H := Sample.declared)
           Sample.two_views_store 1 2 7 8 Sample.view Sample.other_view);
    (reflexivity || discriminate).
Defined.

End AdapterMoreFacts.
